(** * radiocore.analog.fm: the generic FM demodulator

    A shallow embedding of [src/radiocore/analog/fm.py] (class [FM]) and
    the properties of its construction, its [channels] accessor and its
    [run] method.

    The array module [self._xp] (numpy or cupy, bound by [Injector]) and the
    [Decimate] collaborator are not part of the file; they enter as
    interfaces ([ArrayModule], [Decimator]).  Everything [run] itself does
    (the size check, the slices of the fast path, the in-place slice
    assignment on the possibly shared input array, the pipeline of the exact
    path, the reshape and the optional transfer to the host) is written out. *)

From Stdlib Require Import ZArith String SpecFloat.
From stdpp Require Import base option list gmap strings.

Local Open Scope Z_scope.

(** ** Python exceptions and fallible results *)

Inductive exn : Type :=
| ValueError (msg : string)
| OverflowError (msg : string).

Inductive result (A : Type) : Type :=
| Ok (a : A)
| Raise (e : exn).
Arguments Ok {A} a.
Arguments Raise {A} e.

(** Sequencing: an exception ends the computation. *)
Definition bind {A B} (m : result A) (f : A → result B) : result B :=
  match m with Ok a => f a | Raise e => Raise e end.

Notation "'let!' x ':=' m 'in' k" := (bind m (fun x => k))
  (at level 10, x name, m at level 100, k at level 200,
   format "'[v' 'let!'  x  ':='  m  'in' '/' k ']'").

(** The one error [FM.run] raises itself (fm.py, line 59). *)
Definition InvalidInputSize : exn :=
  ValueError "input_sig size and input_size mismatch".

(** The error of the array module when two shapes do not fit. *)
Definition BroadcastError : exn :=
  ValueError "operands could not be broadcast together".

(** ** One-dimensional arrays: slices, broadcasting, slice assignment *)

Section Arrays.
Context {A B C : Type}.

(** A slice bound [i] of a sequence of length [n], as Python resolves it
    for a step of 1: a negative bound counts from the end, and the result
    is clamped to [0, n]. *)
Definition clamp_index (n i : Z) : Z :=
  if i <? 0 then Z.max (i + n) 0 else Z.min i n.

Definition slice_bounds (start stop : option Z) (n : nat) : nat * nat :=
  let lo := from_option (clamp_index (Z.of_nat n)) 0 start in
  let hi := from_option (clamp_index (Z.of_nat n)) (Z.of_nat n) stop in
  (Z.to_nat lo, Z.to_nat hi).

(** [a[start:stop]] *)
Definition slice (start stop : option Z) (a : list A) : list A :=
  let '(lo, hi) := slice_bounds start stop (length a) in
  take (hi - lo)%nat (drop lo a).

(** An element-wise binary operation [f] on two arrays, with the
    broadcasting rule for one dimension: equal lengths, or one operand of
    length 1. *)
Definition broadcast2 (f : A → B → C) (a : list A) (b : list B)
  : result (list C) :=
  if decide (length a = length b) then Ok (zip_with f a b)
  else match a, b with
       | [x], _ => Ok (f x <$> b)
       | _, [y] => Ok ((λ x, f x y) <$> a)
       | _, _ => Raise BroadcastError
       end.

(** The value [v] as it is written into a slice of length [n]. *)
Definition broadcast_to (n : nat) (v : list A) : result (list A) :=
  if decide (length v = n) then Ok v
  else match v with
       | [x] => Ok (replicate n x)
       | _ => Raise BroadcastError
       end.

(** [a[start:stop] = v], on the contents of the array. *)
Definition set_slice (start stop : option Z) (a v : list A)
  : result (list A) :=
  let '(lo, hi) := slice_bounds start stop (length a) in
  let! v' := broadcast_to (hi - lo)%nat v in
  Ok (take lo a ++ v' ++ drop (lo + (hi - lo))%nat a).
End Arrays.

(** ** The array module [self._xp] *)

(** Modelled from the spec: the array context that [Injector] (not among
    the sources) binds to [self._xp], numpy or cupy.  It provides the
    scalar operations on real and complex samples, the phase unwrapping
    routine and the constant pi.  Nothing is assumed of the arithmetic (it
    is floating point); the only law is that [unwrap] returns an array of
    the shape of its argument. *)
Class ArrayModule : Type := {
  real : Type;
  cplx : Type;
  of_int : Z → real;              (* a Python int as a sample value *)
  rsub : real → real → real;      (* x - y *)
  rneg : real → real;             (* - x *)
  rdiv : real → real → real;      (* x / y *)
  pi : real;                      (* _xp.pi *)
  csub : cplx → cplx → cplx;      (* x - y *)
  cmul : cplx → cplx → cplx;      (* x * y *)
  conj : cplx → cplx;             (* _xp.conj *)
  creal : cplx → real;            (* .real *)
  cimag : cplx → real;            (* .imag *)
  angle : cplx → real;            (* _xp.angle *)
  unwrap : list real → list real; (* _xp.unwrap *)
  unwrap_length : ∀ p, length (unwrap p) = length p;
}.

Section ArrayOps.
Context `{XP : ArrayModule}.

(** [_xp.diff(a)]: [a[1:] - a[:-1]]. *)
Definition diff (a : list real) : list real :=
  zip_with rsub (slice (Some 1) None a) (slice None (Some (-1)) a).

(** [_xp.pad(a, (1, 0))]: one zero in front, none behind. *)
Definition pad_1_0 (a : list real) : list real :=
  replicate 1 (of_int 0) ++ a ++ replicate 0 (of_int 0).
End ArrayOps.

(** ** The [Decimate] collaborator *)

(** Modelled from the spec: [radiocore.analog.decimate.Decimate] is not
    among the sources.  It is constructed with (input_size, output_size,
    backend choice) and exposes one operation, [run], from a real buffer to
    a real buffer; it may keep history between calls, so [run] also returns
    the collaborator's next state. *)
Class Decimator `{XP : ArrayModule} : Type := {
  Decimate : Type;
  Decimate_init : Z → Z → bool → Decimate;
  Decimate_run : Decimate → list real → Decimate * list real;
}.

(** ** Python numbers accepted as sizes: [Union[int, float]] *)

Inductive size_arg : Type :=
| PyInt (z : Z)
| PyFloat (f : spec_float).

(** [int(x)]: the identity on an int; a float is truncated toward zero,
    and a NaN or an infinity has no integer value. *)
Definition int (x : size_arg) : result Z :=
  match x with
  | PyInt z => Ok z
  | PyFloat (S754_zero _) => Ok 0
  | PyFloat (S754_finite s m e) =>
      let n := if s then Z.neg m else Z.pos m in
      Ok (if 0 <=? e then n * 2 ^ e else n ÷ 2 ^ (- e))
  | PyFloat (S754_infinity _) =>
      Raise (OverflowError "cannot convert float infinity to integer")
  | PyFloat S754_nan =>
      Raise (ValueError "cannot convert float NaN to integer")
  end.

(** ** Arrays in memory

    An array that the caller and [run] may both hold lives in the heap; a
    Python sequence is a value. *)

Definition loc := positive.

Inductive pyobj `{XP : ArrayModule} : Type :=
| PySeq (xs : list cplx)      (* a sequence: [asarray] builds a new array *)
| BackendArray (l : loc).     (* an array of [_xp]: [asarray] returns it *)

(** A two-dimensional array of reals: its shape and its elements in row
    order. *)
Record ndarray2 `{XP : ArrayModule} : Type := {
  shape : nat * nat;
  data : list real;
}.

(** What [run] hands back: the buffer of the backend itself, or the copy
    that [_xp.asnumpy] made in host memory. *)
Inductive returned `{XP : ArrayModule} : Type :=
| OnBackend (a : ndarray2)
| HostCopy (a : ndarray2).

Section Demodulator.
Context `{DEC : Decimator}.

Abbreviation heap := (gmap loc (list cplx)).

(** The contents of the object [input_sig] in the heap [h] (a location
    that holds nothing reads as the empty array). *)
Definition contents (h : heap) (o : pyobj) : list cplx :=
  match o with
  | PySeq xs => xs
  | BackendArray l => h !!! l
  end.

(** [len(input_sig)] *)
Definition len (h : heap) (o : pyobj) : nat := length (contents h o).

(** [_xp.asarray(input_sig)] *)
Definition asarray (h : heap) (o : pyobj) : loc * heap :=
  match o with
  | PySeq xs => let l := fresh (dom h) in (l, <[l := xs]> h)
  | BackendArray l => (l, h)
  end.

(** [_xp.expand_dims(a, axis=1)] on a one-dimensional array. *)
Definition expand_dims_1 (a : list real) : ndarray2 :=
  {| shape := (length a, 1%nat); data := a |}.

(** The state of an [FM] object. *)
Record FM : Type := {
  _cuda : bool;
  _input_size : Z;
  _output_size : Z;
  _decimate : Decimate;
  fast : bool;
}.

(** [FM.__init__(input_size, output_size, deemphasis, cuda)].  The call
    [super().__init__(cuda)] binds [self._xp], the array module of the
    context; [deemphasis] is not used. *)
Definition __init__ (input_size output_size : size_arg)
    (deemphasis : spec_float) (cuda : bool) : result FM :=
  let! i := int input_size in
  let! o := int output_size in
  Ok {| _cuda := cuda;
        _input_size := i;
        _output_size := o;
        _decimate := Decimate_init i o cuda;
        fast := true |}.

(** [FM.channels], with the state it leaves behind. *)
Definition channels (self : FM) (h : heap) : Z * FM * heap :=
  (1, self, h).

(** [self.fast = b], the assignment a caller makes between calls. *)
Definition set_fast (b : bool) (self : FM) : FM :=
  {| _cuda := _cuda self;
     _input_size := _input_size self;
     _output_size := _output_size self;
     _decimate := _decimate self;
     fast := b |}.

(** Lines 64-65: the accelerated demodulation, on the array at [_tmp].
    The right-hand side of line 64 is evaluated into new arrays and then
    stored through the slice, in the array that [_tmp] names; line 65
    reads that array again and builds a new, real one. *)
Definition demod_fast (h : heap) (_tmp : loc)
  : result (list real) * heap :=
  let a := h !!! _tmp in
  let rhs :=
    let! d := broadcast2 csub (slice None (Some (-2)) a)
                              (slice (Some 2) None a) in
    broadcast2 cmul d (conj <$> slice (Some 1) (Some (-1)) a) in
  match bind rhs (set_slice None (Some (-2)) a) with
  | Raise e => (Raise e, h)
  | Ok a' =>
      let h' := <[_tmp := a']> h in
      let b := h' !!! _tmp in
      (let! r := broadcast2 rsub (creal <$> b) (cimag <$> b) in
       Ok ((λ v, rdiv v (of_int 2)) <$> (rneg <$> r)), h')
  end.

(** Lines 68-72: the default demodulation; every step returns a new
    array. *)
Definition demod_exact (a : list cplx) : list real :=
  let _tmp := angle <$> a in
  let _tmp := unwrap _tmp in
  let _tmp := diff _tmp in
  let _tmp := pad_1_0 _tmp in
  (λ v, rdiv v pi) <$> _tmp.

(** Lines 62-72: the buffer that is handed to the decimator. *)
Definition demodulate (self : FM) (h : heap) (_tmp : loc)
  : result (list real) * heap :=
  if fast self then demod_fast h _tmp
  else (Ok (demod_exact (h !!! _tmp)), h).

(** [FM.run(input_sig, numpy_output)]: the outcome, the object after the
    call and the heap after the call. *)
Definition run (self : FM) (h : heap) (input_sig : pyobj)
    (numpy_output : bool) : result returned * FM * heap :=
  if decide (Z.of_nat (len h input_sig) ≠ _input_size self)
  then (Raise InvalidInputSize, self, h)
  else
    let '(_tmp, h) := asarray h input_sig in
    match demodulate self h _tmp with
    | (Raise e, h) => (Raise e, self, h)
    | (Ok buf, h) =>
        let '(d, out) := Decimate_run (_decimate self) buf in
        let self := {| _cuda := _cuda self;
                       _input_size := _input_size self;
                       _output_size := _output_size self;
                       _decimate := d;
                       fast := fast self |} in
        let _tmp := expand_dims_1 out in
        if _cuda self && numpy_output
        then (Ok (HostCopy _tmp), self, h)
        else (Ok (OnBackend _tmp), self, h)
    end.

(** The pre-decimation buffer of a call: the argument that [run] passes
    to [Decimate_run]. *)
Definition pre_decimation (self : FM) (h : heap) (input_sig : pyobj)
  : result (list real) :=
  let '(_tmp, h) := asarray h input_sig in
  (demodulate self h _tmp).1.

(** The life of one object: every later state comes from calls to [run]
    (whatever their arguments and outcome) and assignments to [fast]. *)
Inductive evolves (self : FM) : FM → Prop :=
| evolves_refl : evolves self self
| evolves_run self' h input_sig numpy_output :
    evolves self self' →
    evolves self (run self' h input_sig numpy_output).1.2
| evolves_set_fast self' b :
    evolves self self' → evolves self (set_fast b self').
End Demodulator.

(** ** The closed forms of the specification *)

Section ClosedForms.
Context `{XP : ArrayModule}.

(** [d = (x0 - x2) * conj(x1)], for three consecutive samples. *)
Definition difference_product (x0 x1 x2 : cplx) : cplx :=
  cmul (csub x0 x2) (conj x1).

(** [-(Re(d) - Im(d)) / 2] *)
Definition half_neg_re_minus_im (d : cplx) : real :=
  rdiv (rneg (rsub (creal d) (cimag d))) (of_int 2).

(** The contents of the working array after line 64: the products of the
    three slices in front, the last two samples as they were. *)
Definition after_line_64 (a : list cplx) : list cplx :=
  zip_with cmul
    (zip_with csub (take (length a - 2) a) (drop 2 a))
    (conj <$> take (length a - 2) (drop 1 a))
  ++ drop (length a - 2) a.

(** The array a returned value carries. *)
Definition frame_of (r : returned) : ndarray2 :=
  match r with OnBackend a => a | HostCopy a => a end.

(** Whether a returned value went through [_xp.asnumpy]. *)
Definition transferred (r : returned) : bool :=
  match r with OnBackend _ => false | HostCopy _ => true end.
End ClosedForms.

(** [r] is what [run] returns when the decimator is given [buf]: the
    decimator's answer, reshaped to one column. *)
Definition decimated `{DEC : Decimator} (self : FM) (buf : list real)
    (r : returned) : Prop :=
  frame_of r = expand_dims_1 (Decimate_run (_decimate self) buf).2.

(** [i] is the number [x] with its fractional part dropped.  A finite
    float is [m * 2^e] up to its sign. *)
Definition truncation_of (x : size_arg) (i : Z) : Prop :=
  match x with
  | PyInt z => i = z
  | PyFloat (S754_zero _) => i = 0
  | PyFloat (S754_finite s m e) =>
      (if s then i ≤ 0 else 0 ≤ i) ∧
      Z.abs i * 2 ^ Z.max 0 (- e) ≤ Z.pos m * 2 ^ Z.max 0 e
        < (Z.abs i + 1) * 2 ^ Z.max 0 (- e)
  | PyFloat _ => False
  end.

(** A size argument that denotes a number: an int or a finite float. *)
Definition finite (x : size_arg) : bool :=
  match x with
  | PyInt _ => true
  | PyFloat (S754_zero _) | PyFloat (S754_finite _ _ _) => true
  | PyFloat (S754_infinity _) | PyFloat S754_nan => false
  end.

(** ** A reference array module and a reference decimator

    The free array module: a sample is the expression that the backend
    evaluated to obtain it.  Whatever holds of the expressions holds of
    their values in numpy and in cupy. *)

Module Symbolic.
#[local] Set Warnings "-register-all".
Inductive cexp : Type :=
| Sample (re im : Z)
| CSub (x y : cexp)
| CMul (x y : cexp)
| Conj (x : cexp).

Inductive rexp : Type :=
| OfInt (z : Z)
| RSub (x y : rexp)
| RNeg (x : rexp)
| RDiv (x y : rexp)
| Pi
| Re (c : cexp)
| Im (c : cexp)
| Angle (c : cexp)
| Unwrapped (i : nat) (p : list rexp).

#[export] Instance xp : ArrayModule := {|
  real := rexp;
  cplx := cexp;
  of_int := OfInt;
  rsub := RSub;
  rneg := RNeg;
  rdiv := RDiv;
  pi := Pi;
  csub := CSub;
  cmul := CMul;
  conj := Conj;
  creal := Re;
  cimag := Im;
  angle := Angle;
  unwrap := λ p, imap (λ i _, Unwrapped i p) p;
  unwrap_length := λ p, length_imap _ p;
|}.
End Symbolic.

(** A stand-in for the collaborator, to run the model on examples: a
    decimator without history that keeps every k-th sample, k being the
    ratio of the two sizes, and always returns [output_size] samples. *)
Module Stride.
Section Stride.
Context `{XP : ArrayModule}.

Definition pick (k : nat) (buf : list real) (j : nat) : real :=
  default (of_int 0) (buf !! (j * k)%nat).

#[export] Instance decimator : Decimator := {|
  Decimate := Z * Z;
  Decimate_init := λ i o _, (i, o);
  Decimate_run := λ d buf,
    (d, pick (Z.to_nat (d.1 / d.2)) buf <$> seq 0 (Z.to_nat d.2));
|}.
End Stride.
End Stride.

(** A second stand-in, with history: each sample it returns is the
    picked sample minus the last sample of the buffer of the call before
    (zero at the first call).  Its answer is a function of its state and
    of the buffer. *)
Module History.
Section History.
Context `{XP : ArrayModule}.

Definition decimator : Decimator := {|
  Decimate := Z * Z * real;
  Decimate_init := λ i o _, (i, o, of_int 0);
  Decimate_run := λ d buf,
    ((d.1.1, d.1.2, default d.2 (last buf)),
     (λ j, rsub (Stride.pick (Z.to_nat (d.1.1 / d.1.2)) buf j) d.2)
       <$> seq 0 (Z.to_nat d.1.2));
|}.
End History.
End History.

(** ** Sample objects

    Objects of the reference instances: a demodulator from 4 samples to 2,
    a demodulator of size 0, and four samples on the unit circle. *)

Definition deemphasis_default : spec_float :=
  S754_finite false 5534023222112865 (-66).

Definition demo_iq : list (@cplx Symbolic.xp) :=
  [Symbolic.Sample 1 0; Symbolic.Sample 0 1;
   Symbolic.Sample (-1) 0; Symbolic.Sample 0 (-1)].

Definition demo_fm : @FM Symbolic.xp Stride.decimator :=
  {| _cuda := false; _input_size := 4; _output_size := 2;
     _decimate := ((4, 2) : @Decimate _ Stride.decimator); fast := true |}.

Definition demo_cuda_fm : @FM Symbolic.xp Stride.decimator :=
  {| _cuda := true; _input_size := 4; _output_size := 2;
     _decimate := ((4, 2) : @Decimate _ Stride.decimator); fast := true |}.

Definition demo_empty_fm : @FM Symbolic.xp Stride.decimator :=
  {| _cuda := false; _input_size := 0; _output_size := 0;
     _decimate := ((0, 0) : @Decimate _ Stride.decimator); fast := false |}.

Definition demo_seq : @pyobj Symbolic.xp := @PySeq Symbolic.xp demo_iq.

Definition demo_empty_seq : @pyobj Symbolic.xp := @PySeq Symbolic.xp [].

Definition demo_array : @pyobj Symbolic.xp := @BackendArray Symbolic.xp 5%positive.

Definition demo_heap : gmap loc (list (@cplx Symbolic.xp)) :=
  {[ 5%positive := demo_iq ]}.

(** A demodulator from 4 samples to 2 whose decimator keeps history. *)
Definition demo_history_fm : @FM Symbolic.xp History.decimator :=
  {| _cuda := false; _input_size := 4; _output_size := 2;
     _decimate := ((4, 2, Symbolic.OfInt 0)
                   : @Decimate Symbolic.xp (@History.decimator Symbolic.xp));
     fast := true |}.

(** More sample objects: a demodulator of two samples with its input in
    the heap, one of five samples, and one built with a negative size. *)

Definition demo_pair_fm : @FM Symbolic.xp Stride.decimator :=
  {| _cuda := false; _input_size := 2; _output_size := 1;
     _decimate := ((2, 1) : @Decimate _ Stride.decimator); fast := true |}.

Definition demo_pair_heap : gmap loc (list (@cplx Symbolic.xp)) :=
  {[ 5%positive := [Symbolic.Sample 1 0; Symbolic.Sample 0 1] ]}.

Definition demo_fm5 : @FM Symbolic.xp Stride.decimator :=
  {| _cuda := false; _input_size := 5; _output_size := 1;
     _decimate := ((5, 1) : @Decimate _ Stride.decimator); fast := true |}.

Definition demo_heap5 : gmap loc (list (@cplx Symbolic.xp)) :=
  {[ 5%positive := demo_iq ++ [Symbolic.Sample 1 0] ]}.

Definition demo_negative_fm : @FM Symbolic.xp Stride.decimator :=
  {| _cuda := true; _input_size := -3; _output_size := 9;
     _decimate := ((-3, 9) : @Decimate _ Stride.decimator); fast := true |}.

(** ** Slices of the two demodulation paths *)

Section SliceFacts.
Context {A : Type}.
Implicit Types a v : list A.

Lemma slice_unfold start stop a :
  slice start stop a =
  take ((slice_bounds start stop (length a)).2
        - (slice_bounds start stop (length a)).1)%nat
       (drop (slice_bounds start stop (length a)).1 a).
Proof. unfold slice. by destruct (slice_bounds _ _ _). Qed.

Lemma bounds_to_m2 (n : nat) :
  slice_bounds None (Some (-2)) n = (0, n - 2)%nat.
Proof.
  unfold slice_bounds, clamp_index; cbn [from_option].
  change (-2 <? 0) with true. cbv iota. f_equal; lia.
Qed.

Lemma bounds_to_m1 (n : nat) :
  slice_bounds None (Some (-1)) n = (0, n - 1)%nat.
Proof.
  unfold slice_bounds, clamp_index; cbn [from_option].
  change (-1 <? 0) with true. cbv iota. f_equal; lia.
Qed.

Lemma bounds_from (k n : nat) :
  slice_bounds (Some (Z.of_nat k)) None n = (k `min` n, n)%nat.
Proof.
  unfold slice_bounds, clamp_index; cbn [from_option].
  destruct (Z.ltb_spec (Z.of_nat k) 0); [lia|]. f_equal; lia.
Qed.

Lemma bounds_1_m1 (n : nat) :
  slice_bounds (Some 1) (Some (-1)) n = (1 `min` n, n - 1)%nat.
Proof.
  unfold slice_bounds, clamp_index; cbn [from_option].
  change (1 <? 0) with false. change (-1 <? 0) with true.
  cbv iota. f_equal; lia.
Qed.

(** [a[:-2]] *)
Lemma slice_to_m2 a : slice None (Some (-2)) a = take (length a - 2) a.
Proof. by rewrite slice_unfold, bounds_to_m2; simpl; rewrite Nat.sub_0_r. Qed.

(** [a[:-1]] *)
Lemma slice_to_m1 a : slice None (Some (-1)) a = take (length a - 1) a.
Proof. by rewrite slice_unfold, bounds_to_m1; simpl; rewrite Nat.sub_0_r. Qed.

(** [a[k:]] *)
Lemma slice_from (k : nat) a : slice (Some (Z.of_nat k)) None a = drop k a.
Proof.
  rewrite slice_unfold, bounds_from; cbn [fst snd].
  rewrite take_ge by (rewrite length_drop; lia).
  destruct (decide (k ≤ length a)%nat) as [Hk|Hk].
  - by rewrite Nat.min_l.
  - rewrite Nat.min_r by lia. by rewrite !drop_ge by lia.
Qed.

(** [a[1:]] and [a[2:]] *)
Lemma slice_from_1 a : slice (Some 1) None a = drop 1 a.
Proof. exact (slice_from 1 a). Qed.

Lemma slice_from_2 a : slice (Some 2) None a = drop 2 a.
Proof. exact (slice_from 2 a). Qed.

(** [a[1:-1]] *)
Lemma slice_1_m1 a :
  slice (Some 1) (Some (-1)) a = take (length a - 2) (drop 1 a).
Proof.
  rewrite slice_unfold, bounds_1_m1; cbn [fst snd].
  destruct a as [|x a]; [done|]. cbn [length].
  rewrite Nat.min_l by lia. f_equal. lia.
Qed.

(** [a[:-2] = v] for a value of the shape of the slice. *)
Lemma set_slice_to_m2 a v :
  length v = (length a - 2)%nat →
  set_slice None (Some (-2)) a v = Ok (v ++ drop (length a - 2) a).
Proof.
  intros Hv. unfold set_slice. rewrite bounds_to_m2.
  unfold broadcast_to. rewrite Nat.sub_0_r.
  by rewrite decide_True by done.
Qed.

Lemma broadcast2_same {B C} (f : A → B → C) a (b : list B) :
  length a = length b → broadcast2 f a b = Ok (zip_with f a b).
Proof. intros H. unfold broadcast2. by rewrite decide_True. Qed.
End SliceFacts.

(** ** The two demodulation paths *)

Ltac slice_lengths :=
  rewrite ?length_app, ?length_zip_with, ?length_fmap, ?length_take,
    ?length_drop;
  lia.

Section Paths.
Context `{XP : ArrayModule}.
Implicit Types a : list cplx.

Lemma after_line_64_length a : length (after_line_64 a) = length a.
Proof.
  unfold after_line_64. slice_lengths.
Qed.

Lemma after_line_64_front a i x0 x1 x2 :
  a !! i = Some x0 →
  a !! (i + 1)%nat = Some x1 →
  a !! (i + 2)%nat = Some x2 →
  after_line_64 a !! i = Some (difference_product x0 x1 x2).
Proof.
  intros H0 H1 H2. unfold after_line_64.
  pose proof (lookup_lt_Some _ _ _ H2) as Hlt.
  rewrite lookup_app_l.
  2:{ slice_lengths. }
  rewrite !lookup_zip_with, list_lookup_fmap.
  rewrite !lookup_take_lt, !lookup_drop by lia.
  rewrite H0. rewrite (Nat.add_comm 2 i), H2.
  rewrite (Nat.add_comm 1 i), H1. done.
Qed.

Lemma after_line_64_back a i :
  (length a - 2 ≤ i)%nat → after_line_64 a !! i = a !! i.
Proof.
  intros Hi. unfold after_line_64.
  assert (length (zip_with cmul
            (zip_with csub (take (length a - 2) a) (drop 2 a))
            (conj <$> take (length a - 2) (drop 1 a)))
          = (length a - 2)%nat) as Hlen.
  { slice_lengths. }
  rewrite lookup_app_r by lia.
  rewrite Hlen, lookup_drop. f_equal. lia.
Qed.

(** Lines 64-65 never fail, whatever the length of the array. *)
Lemma demod_fast_eq (h : gmap loc (list cplx)) (l : loc) :
  demod_fast h l =
  (Ok (half_neg_re_minus_im <$> after_line_64 (h !!! l)),
   <[l := after_line_64 (h !!! l)]> h).
Proof.
  unfold demod_fast. set (a := h !!! l).
  rewrite slice_to_m2, slice_from_2, slice_1_m1.
  rewrite broadcast2_same by slice_lengths.
  cbn [bind].
  rewrite broadcast2_same.
  2:{ slice_lengths. }
  cbn [bind].
  rewrite set_slice_to_m2.
  2:{ slice_lengths. }
  fold (after_line_64 a).
  rewrite lookup_total_insert_eq.
  rewrite broadcast2_same by (by rewrite !length_fmap).
  cbn [bind]. f_equal. f_equal.
  rewrite zip_with_fmap_l, zip_with_fmap_r, zip_with_diag.
  rewrite <- !list_fmap_compose. done.
Qed.

(** [_xp.diff] on its elements: consecutive differences, one fewer. *)
Lemma diff_length (p : list real) : length (diff p) = (length p - 1)%nat.
Proof.
  unfold diff. rewrite slice_from_1, slice_to_m1.
  rewrite length_zip_with, length_take, length_drop. lia.
Qed.

Lemma diff_lookup (p : list real) k p0 p1 :
  p !! k = Some p0 → p !! (k + 1)%nat = Some p1 →
  diff p !! k = Some (rsub p1 p0).
Proof.
  intros H0 H1. pose proof (lookup_lt_Some _ _ _ H1).
  unfold diff. rewrite slice_from_1, slice_to_m1.
  rewrite lookup_zip_with, lookup_drop, lookup_take_lt by lia.
  rewrite (Nat.add_comm 1 k), H1, H0. done.
Qed.

Lemma pad_1_0_cons (p : list real) : pad_1_0 p = of_int 0 :: p.
Proof. unfold pad_1_0. simpl. by rewrite app_nil_r. Qed.
End Paths.

(** ** Properties of [FM] *)

Section Properties.
Context `{DEC : Decimator}.
Implicit Types (self : FM) (h : gmap loc (list cplx)) (o : pyobj).

Lemma asarray_contents h o :
  (asarray h o).2 !!! (asarray h o).1 = contents h o.
Proof.
  destruct o as [xs|l]; simpl; [|done].
  by rewrite lookup_total_insert_eq.
Qed.

Lemma asarray_frame h o l :
  is_Some (h !! l) → l ≠ (asarray h o).1 ∨ o = BackendArray l.
Proof.
  intros Hl. destruct o as [xs|l']; simpl.
  - left. intros ->. apply (is_fresh (dom h)). by apply elem_of_dom.
  - destruct (decide (l = l')) as [->|]; auto.
Qed.

Lemma pre_decimation_fast self h o :
  fast self = true →
  pre_decimation self h o
  = Ok (half_neg_re_minus_im <$> after_line_64 (contents h o)).
Proof.
  intros Hf. unfold pre_decimation, demodulate. rewrite Hf.
  pose proof (asarray_contents h o) as Hc.
  destruct (asarray h o) as [l h1]. simpl in Hc.
  by rewrite demod_fast_eq, Hc.
Qed.

Lemma pre_decimation_exact self h o :
  fast self = false →
  pre_decimation self h o = Ok (demod_exact (contents h o)).
Proof.
  intros Hf. unfold pre_decimation, demodulate. rewrite Hf.
  pose proof (asarray_contents h o) as Hc.
  destruct (asarray h o) as [l h1]. simpl in *. by rewrite Hc.
Qed.

(** A call with an input of the configured size runs through: the
    demodulated buffer goes to the decimator, whose answer is reshaped
    and returned. *)
Lemma run_valid self h o c :
  Z.of_nat (len h o) = _input_size self →
  ∃ buf, pre_decimation self h o = Ok buf ∧
    run self h o c =
    (Ok ((if _cuda self && c then HostCopy else OnBackend)
           (expand_dims_1 (Decimate_run (_decimate self) buf).2)),
     {| _cuda := _cuda self;
        _input_size := _input_size self;
        _output_size := _output_size self;
        _decimate := (Decimate_run (_decimate self) buf).1;
        fast := fast self |},
     if fast self
     then <[(asarray h o).1 := after_line_64 (contents h o)]> (asarray h o).2
     else (asarray h o).2).
Proof.
  intros Hlen. unfold run, pre_decimation, demodulate.
  rewrite decide_False by (intros Hne; by apply Hne).
  pose proof (asarray_contents h o) as Hc.
  destruct (asarray h o) as [l h1]. cbn [fst snd] in *.
  destruct (fast self) eqn:Hf.
  - rewrite demod_fast_eq, Hc. eexists; split; [done|]. cbn [fst snd].
    destruct (Decimate_run _ _) as [d out]. cbn [fst snd _cuda].
    by destruct (_cuda self && c).
  - rewrite Hc. eexists; split; [done|]. cbn [fst snd].
    destruct (Decimate_run _ _) as [d out]. cbn [fst snd _cuda].
    by destruct (_cuda self && c).
Qed.

Lemma run_fixed self h o c :
  _cuda (run self h o c).1.2 = _cuda self ∧
  _input_size (run self h o c).1.2 = _input_size self ∧
  _output_size (run self h o c).1.2 = _output_size self ∧
  fast (run self h o c).1.2 = fast self.
Proof.
  destruct (decide (Z.of_nat (len h o) = _input_size self)) as [Hv|Hv].
  - destruct (run_valid self h o c Hv) as (buf & _ & ->). done.
  - unfold run. by rewrite decide_True.
Qed.

(** The backend choice and the two sizes never change. *)
Lemma evolves_fixed self self' :
  evolves self self' →
  _cuda self' = _cuda self ∧
  _input_size self' = _input_size self ∧
  _output_size self' = _output_size self.
Proof.
  induction 1 as [|s' h o c _ (IH1 & IH2 & IH3)|s' b _ IH]; [done| |done].
  destruct (run_fixed s' h o c) as (-> & -> & -> & _). done.
Qed.

Lemma run_valid_decimated self h o c buf :
  Z.of_nat (len h o) = _input_size self →
  pre_decimation self h o = Ok buf →
  ∃ r, (run self h o c).1.1 = Ok r ∧ decimated self buf r.
Proof.
  intros Hv Hb. destruct (run_valid self h o c Hv) as (buf' & Hb' & ->).
  rewrite Hb in Hb'. injection Hb' as <-. eexists; split; [done|].
  unfold decimated. by destruct (_cuda self && c).
Qed.

(** C1: on the fast path, with an input of the configured size N >= 3,
    the buffer handed to the decimator holds at every index i from 0 to
    N-3 the value -(Re(d) - Im(d)) / 2 of the difference product
    d = (x[i] - x[i+2]) * conj(x[i+1]) of the input samples. *)
Theorem fast_path_difference_product self h o (N i : nat) :
  fast self = true →
  len h o = N →
  Z.of_nat N = _input_size self →
  (3 ≤ N)%nat →
  (i + 3 ≤ N)%nat →
  ∃ buf x0 x1 x2,
    pre_decimation self h o = Ok buf ∧
    (∀ c, ∃ r, (run self h o c).1.1 = Ok r ∧ decimated self buf r) ∧
    contents h o !! i = Some x0 ∧
    contents h o !! (i + 1)%nat = Some x1 ∧
    contents h o !! (i + 2)%nat = Some x2 ∧
    buf !! i = Some (half_neg_re_minus_im (difference_product x0 x1 x2)).
Proof.
  intros Hf HN Hsize _ Hi. unfold len in HN.
  destruct (lookup_lt_is_Some_2 (contents h o) i) as [x0 H0]; [lia|].
  destruct (lookup_lt_is_Some_2 (contents h o) (i + 1)) as [x1 H1]; [lia|].
  destruct (lookup_lt_is_Some_2 (contents h o) (i + 2)) as [x2 H2]; [lia|].
  exists (half_neg_re_minus_im <$> after_line_64 (contents h o)), x0, x1, x2.
  pose proof (pre_decimation_fast self h o Hf) as Hb.
  repeat split; try done.
  - intros c. apply run_valid_decimated; [|done]. unfold len. congruence.
  - rewrite list_lookup_fmap.
    by rewrite (after_line_64_front _ _ _ _ _ H0 H1 H2).
Qed.

(** C6: on the fast path the last two elements of the buffer handed to
    the decimator are determined by the input: at i = N-2 and i = N-1 the
    value is -(Re(x[i]) - Im(x[i])) / 2 of the original sample x[i]. *)
Theorem fast_path_last_two self h o (N i : nat) :
  fast self = true →
  len h o = N →
  Z.of_nat N = _input_size self →
  (N - 2 ≤ i < N)%nat →
  ∃ buf xi,
    pre_decimation self h o = Ok buf ∧
    (∀ c, ∃ r, (run self h o c).1.1 = Ok r ∧ decimated self buf r) ∧
    contents h o !! i = Some xi ∧
    buf !! i = Some (half_neg_re_minus_im xi).
Proof.
  intros Hf HN Hsize Hi. unfold len in HN.
  destruct (lookup_lt_is_Some_2 (contents h o) i) as [xi Hxi]; [lia|].
  exists (half_neg_re_minus_im <$> after_line_64 (contents h o)), xi.
  pose proof (pre_decimation_fast self h o Hf) as Hb.
  repeat split; try done.
  - intros c. apply run_valid_decimated; [|done]. unfold len. congruence.
  - rewrite list_lookup_fmap, after_line_64_back by lia. by rewrite Hxi.
Qed.

(** C5: on the fast path, when the input is an array of the backend,
    [run] writes the difference products over the first N-2 elements of
    that very array and leaves its last two elements and every other
    array alone; the caller's array has changed as soon as one product
    differs from the sample it replaces. *)
Theorem fast_path_overwrites_input self h l c (N : nat) :
  fast self = true →
  length (h !!! l) = N →
  Z.of_nat N = _input_size self →
  let x := h !!! l in
  let h' := (run self h (BackendArray l) c).2 in
  length (h' !!! l) = N ∧
  (∀ i x0 x1 x2,
     x !! i = Some x0 → x !! (i + 1)%nat = Some x1 →
     x !! (i + 2)%nat = Some x2 →
     (h' !!! l) !! i = Some (difference_product x0 x1 x2)) ∧
  (∀ i, (N - 2 ≤ i)%nat → (h' !!! l) !! i = x !! i) ∧
  (∀ l', l' ≠ l → h' !! l' = h !! l') ∧
  (∀ i x0 x1 x2,
     x !! i = Some x0 → x !! (i + 1)%nat = Some x1 →
     x !! (i + 2)%nat = Some x2 →
     difference_product x0 x1 x2 ≠ x0 →
     h' !!! l ≠ x).
Proof.
  intros Hf HN Hsize x h'.
  assert (h' = <[l := after_line_64 x]> h) as Hh'.
  { subst h'. destruct (run_valid self h (BackendArray l) c) as (? & _ & ->).
    - unfold len; simpl. congruence.
    - by rewrite Hf. }
  assert (h' !!! l = after_line_64 x) as Hl.
  { by rewrite Hh', lookup_total_insert_eq. }
  rewrite Hl. repeat split.
  - rewrite after_line_64_length. done.
  - intros i x0 x1 x2. apply after_line_64_front.
  - intros i Hi. apply after_line_64_back. subst x. lia.
  - intros l' Hne. by rewrite Hh', lookup_insert_ne.
  - intros i x0 x1 x2 H0 H1 H2 Hne Heq.
    pose proof (after_line_64_front _ _ _ _ _ H0 H1 H2) as Hd.
    rewrite Heq, H0 in Hd. congruence.
Qed.

(** C2: on the exact path, with an input of the configured size N (a
    positive number of samples), the buffer handed to the decimator is the
    unwrapped phase angles of the samples, first-differenced (length N-1),
    left-padded with one zero back to length N, everything divided by pi.
    Its element 0 is the padded zero over pi and its element k+1 is
    (phase[k+1] - phase[k]) / pi. *)
Theorem exact_path_phase_difference self h o (N : nat) :
  fast self = false →
  len h o = N →
  Z.of_nat N = _input_size self →
  (1 ≤ N)%nat →
  let phase := unwrap (angle <$> contents h o) in
  ∃ buf,
    pre_decimation self h o = Ok buf ∧
    (∀ c, ∃ r, (run self h o c).1.1 = Ok r ∧ decimated self buf r) ∧
    buf = (λ v, rdiv v pi) <$> (of_int 0 :: diff phase) ∧
    length phase = N ∧
    length (diff phase) = (N - 1)%nat ∧
    length (of_int 0 :: diff phase) = N ∧
    (of_int 0 :: diff phase) !! 0%nat = Some (of_int 0) ∧
    length buf = N ∧
    buf !! 0%nat = Some (rdiv (of_int 0) pi) ∧
    (∀ k p0 p1,
       phase !! k = Some p0 → phase !! (k + 1)%nat = Some p1 →
       buf !! (k + 1)%nat = Some (rdiv (rsub p1 p0) pi)).
Proof.
  intros Hf HN Hsize Hpos phase. unfold len in HN.
  pose proof (pre_decimation_exact self h o Hf) as Hb.
  assert (length phase = N) as Hph.
  { subst phase. by rewrite unwrap_length, length_fmap. }
  exists (demod_exact (contents h o)).
  unfold demod_exact at 3 4 5 6. rewrite pad_1_0_cons. fold phase.
  repeat split; try done.
  - intros c. apply run_valid_decimated; [|done]. unfold len. congruence.
  - by rewrite diff_length, Hph.
  - cbn [length]. rewrite diff_length, Hph. lia.
  - rewrite length_fmap. cbn [length]. rewrite diff_length, Hph. lia.
  - intros k p0 p1 H0 H1.
    rewrite Nat.add_1_r, fmap_cons, lookup_cons, list_lookup_fmap.
    by rewrite (diff_lookup _ _ _ _ H0 H1).
Qed.

(** C3: an input whose length differs from the configured size makes
    [run] raise InvalidInputSize at once, leaving the object and the heap
    as they were, and a later call with an input of the configured size
    returns normally; a call with an input of the configured size never
    raises, so the error means a length mismatch. *)
Theorem run_rejects_size_mismatch self h o c :
  (Z.of_nat (len h o) ≠ _input_size self →
     run self h o c = (Raise InvalidInputSize, self, h) ∧
     ∀ good c',
       Z.of_nat (len (run self h o c).2 good)
         = _input_size (run self h o c).1.2 →
       ∃ r self' h',
         run (run self h o c).1.2 (run self h o c).2 good c'
         = (Ok r, self', h')) ∧
  (∀ e, (run self h o c).1.1 = Raise e →
        e = InvalidInputSize ∧ Z.of_nat (len h o) ≠ _input_size self).
Proof.
  split.
  - intros Hne.
    assert (run self h o c = (Raise InvalidInputSize, self, h)) as ->.
    { unfold run. by rewrite decide_True. }
    split; [done|]. cbn [fst snd]. intros good c' Hv.
    destruct (run_valid self h good c' Hv) as (buf & _ & ->). eauto.
  - intros e He.
    destruct (decide (Z.of_nat (len h o) = _input_size self)) as [Hv|Hne].
    + destruct (run_valid self h o c Hv) as (buf & _ & Hr).
      rewrite Hr in He. done.
    + unfold run in He. rewrite decide_True in He by done.
      injection He as <-. done.
Qed.

(** C4: with an input of the configured size, and a decimator that
    answers the buffer it is handed with [output_size] samples, [run]
    returns, whichever value the fast flag has, a frame of shape
    (output_size, 1): its elements are the [output_size] samples of the
    decimator's answer, in one column. *)
Theorem run_shape self h o c :
  Z.of_nat (len h o) = _input_size self →
  (∀ b buf, pre_decimation (set_fast b self) h o = Ok buf →
            Z.of_nat (length (Decimate_run (_decimate self) buf).2)
            = _output_size self) →
  ∀ b : bool, ∃ buf r self' h',
    pre_decimation (set_fast b self) h o = Ok buf ∧
    run (set_fast b self) h o c = (Ok r, self', h') ∧
    data (frame_of r) = (Decimate_run (_decimate self) buf).2 ∧
    length (data (frame_of r)) = Z.to_nat (_output_size self) ∧
    shape (frame_of r) = (Z.to_nat (_output_size self), 1%nat).
Proof.
  intros Hv Hdec b.
  destruct (run_valid (set_fast b self) h o c Hv) as (buf & Hb & ->).
  specialize (Hdec b buf Hb). cbn [set_fast _decimate _cuda] in *.
  exists buf. do 3 eexists. split; [exact Hb|]. split; [done|].
  rewrite <- Hdec, Nat2Z.id. by destruct (_cuda self && c).
Qed.

(** The buffer handed to the decimator depends on the flag and on the
    contents of the input only. *)
Lemma pre_decimation_contents self1 self2 h1 h2 o1 o2 :
  fast self1 = fast self2 →
  contents h1 o1 = contents h2 o2 →
  pre_decimation self1 h1 o1 = pre_decimation self2 h2 o2.
Proof.
  intros Hf Hc. destruct (fast self2) eqn:Hf2.
  - by rewrite !pre_decimation_fast, Hc.
  - by rewrite !pre_decimation_exact, Hc.
Qed.


(** C8: a successful call returns the copy made by [_xp.asnumpy] exactly
    when the object was built with cuda and numpy_output is true; in
    every other case it returns the backend's own buffer, with the same
    frame, so numpy_output changes nothing when cuda is off. *)
Theorem run_transfer self h o :
  Z.of_nat (len h o) = _input_size self →
  ∃ a self' h',
    (∀ c, run self h o c =
          (Ok (if _cuda self && c then HostCopy a else OnBackend a),
           self', h')) ∧
    (∀ c r, (run self h o c).1.1 = Ok r →
            transferred r = true ↔ _cuda self = true ∧ c = true) ∧
    (_cuda self = false → run self h o true = run self h o false).
Proof.
  intros Hv.
  destruct (run_valid self h o true Hv) as (buf & Hb & _).
  assert (∀ c, run self h o c =
    (Ok (if _cuda self && c
         then HostCopy (expand_dims_1 (Decimate_run (_decimate self) buf).2)
         else OnBackend (expand_dims_1 (Decimate_run (_decimate self) buf).2)),
     {| _cuda := _cuda self;
        _input_size := _input_size self;
        _output_size := _output_size self;
        _decimate := (Decimate_run (_decimate self) buf).1;
        fast := fast self |},
     if fast self
     then <[(asarray h o).1 := after_line_64 (contents h o)]> (asarray h o).2
     else (asarray h o).2)) as Hrun.
  { intros c. destruct (run_valid self h o c Hv) as (buf' & Hb' & ->).
    rewrite Hb in Hb'. injection Hb' as <-.
    by destruct (_cuda self && c). }
  do 3 eexists. split; [exact Hrun|]. split.
  - intros c r. rewrite Hrun. cbn [fst]. intros Hr. injection Hr as <-.
    destruct (_cuda self), c; simpl; intuition congruence.
  - intros Hc. rewrite !Hrun, Hc. done.
Qed.

Lemma int_finite x :
  finite x = true → ∃ i, int x = Ok i ∧ truncation_of x i.
Proof.
  destruct x as [z|[s|s| |s m e]]; simpl; try done; eauto.
  intros _. eexists; split; [done|].
  destruct (Z.leb_spec 0 e) as [He|He].
  - rewrite Z.max_l, Z.max_r by lia. rewrite Z.pow_0_r.
    assert (0 < 2 ^ e) by (apply Z.pow_pos_nonneg; lia).
    destruct s; split; nia.
  - rewrite Z.max_r, Z.max_l by lia. rewrite Z.pow_0_r.
    assert (0 < 2 ^ (- e)) as Hq by (apply Z.pow_pos_nonneg; lia).
    set (q := 2 ^ (- e)) in *.
    assert (Z.neg m = - Z.pos m) as -> by done.
    pose proof (Z.quot_rem' (Z.pos m) q) as Hqr.
    pose proof (Z.rem_bound_pos (Z.pos m) q ltac:(lia) Hq) as Hr.
    assert (0 ≤ Z.pos m ÷ q) by (apply Z.quot_pos; lia).
    destruct s.
    + rewrite Z.quot_opp_l by lia. split; nia.
    + split; nia.
Qed.

(** C9 (amended): construction succeeds for every pair of size arguments
    that are ints or finite floats, degenerate or not; the two sizes are
    the arguments with their fractional parts dropped, and they stay
    what they are for the life of the object. *)
Theorem init_accepts_numbers input_size output_size deemphasis cuda :
  finite input_size = true →
  finite output_size = true →
  ∃ (n m : Z) self,
    __init__ input_size output_size deemphasis cuda = Ok self ∧
    truncation_of input_size n ∧
    truncation_of output_size m ∧
    _input_size self = n ∧
    _output_size self = m ∧
    ∀ self', evolves self self' →
             _input_size self' = n ∧ _output_size self' = m.
Proof.
  intros Hi Ho.
  destruct (int_finite _ Hi) as (n & Hinti & Hti).
  destruct (int_finite _ Ho) as (m & Hinto & Hto).
  exists n, m. eexists. unfold __init__. rewrite Hinti, Hinto. cbn [bind].
  do 5 (split; [done|]). intros self' Hev.
  by destruct (evolves_fixed _ _ Hev) as (_ & -> & ->).
Qed.

(** C10: [channels] is 1 for every object, and reading it changes neither
    the object nor the heap. *)
Theorem channels_constant self h : channels self h = (1, self, h).
Proof. reflexivity. Qed.
End Properties.

(** ** The theorems at the sample objects *)

Lemma demo_fm_constructed :
  __init__ (PyInt 4) (PyInt 2) deemphasis_default false = Ok demo_fm.
Proof. reflexivity. Qed.

Lemma demo_history_fm_constructed :
  @__init__ Symbolic.xp History.decimator
    (PyInt 4) (PyInt 2) deemphasis_default false = Ok demo_history_fm.
Proof. reflexivity. Qed.

Lemma demo_empty_fm_constructed :
  set_fast false
    <$> (match __init__ (PyInt 0) (PyInt 0) deemphasis_default false with
         | Ok self => Some self
         | Raise _ => None
         end)
  = Some demo_empty_fm.
Proof. reflexivity. Qed.

Lemma fast_path_difference_product_witness :
  (fast demo_fm = true ∧ len ∅ demo_seq = 4%nat ∧
   Z.of_nat 4 = _input_size demo_fm ∧ (3 ≤ 4)%nat ∧ (1 + 3 ≤ 4)%nat) ∧
  ∃ buf x0 x1 x2,
    pre_decimation demo_fm ∅ demo_seq = Ok buf ∧
    (∀ c, ∃ r, (run demo_fm ∅ demo_seq c).1.1 = Ok r ∧
               decimated demo_fm buf r) ∧
    demo_iq !! 1%nat = Some x0 ∧
    demo_iq !! 2%nat = Some x1 ∧
    demo_iq !! 3%nat = Some x2 ∧
    buf !! 1%nat = Some (half_neg_re_minus_im (difference_product x0 x1 x2)).
Proof.
  split; [repeat split; simpl; lia|].
  apply (fast_path_difference_product demo_fm ∅ demo_seq 4 1);
    [reflexivity | reflexivity | reflexivity | simpl; lia | simpl; lia].
Defined.

Lemma fast_path_last_two_witness :
  (fast demo_fm = true ∧ len ∅ demo_seq = 4%nat ∧
   Z.of_nat 4 = _input_size demo_fm ∧ (4 - 2 ≤ 3 < 4)%nat) ∧
  ∃ buf xi,
    pre_decimation demo_fm ∅ demo_seq = Ok buf ∧
    (∀ c, ∃ r, (run demo_fm ∅ demo_seq c).1.1 = Ok r ∧
               decimated demo_fm buf r) ∧
    demo_iq !! 3%nat = Some xi ∧
    buf !! 3%nat = Some (half_neg_re_minus_im xi).
Proof.
  split; [repeat split; simpl; lia|].
  apply (fast_path_last_two demo_fm ∅ demo_seq 4 3);
    [reflexivity | reflexivity | reflexivity | simpl; lia].
Defined.

Lemma fast_path_overwrites_input_witness :
  (fast demo_fm = true ∧ length (demo_heap !!! 5%positive) = 4%nat ∧
   Z.of_nat 4 = _input_size demo_fm) ∧
  let x := demo_heap !!! 5%positive in
  let h' := (run demo_fm demo_heap demo_array true).2 in
  length (h' !!! 5%positive) = 4%nat ∧
  (∀ i x0 x1 x2,
     x !! i = Some x0 → x !! (i + 1)%nat = Some x1 →
     x !! (i + 2)%nat = Some x2 →
     (h' !!! 5%positive) !! i = Some (difference_product x0 x1 x2)) ∧
  (∀ i, (4 - 2 ≤ i)%nat → (h' !!! 5%positive) !! i = x !! i) ∧
  (∀ l', l' ≠ 5%positive → h' !! l' = demo_heap !! l') ∧
  (∀ i x0 x1 x2,
     x !! i = Some x0 → x !! (i + 1)%nat = Some x1 →
     x !! (i + 2)%nat = Some x2 →
     difference_product x0 x1 x2 ≠ x0 →
     h' !!! 5%positive ≠ x).
Proof.
  split; [repeat split|].
  apply (fast_path_overwrites_input demo_fm demo_heap 5%positive true 4);
    reflexivity.
Defined.

(** The caller's array before and after the call of the last lemma. *)
Lemma demo_array_overwritten :
  (run demo_fm demo_heap demo_array true).2 !!! 5%positive
  = [Symbolic.CMul (Symbolic.CSub (Symbolic.Sample 1 0) (Symbolic.Sample (-1) 0))
       (Symbolic.Conj (Symbolic.Sample 0 1));
     Symbolic.CMul (Symbolic.CSub (Symbolic.Sample 0 1) (Symbolic.Sample 0 (-1)))
       (Symbolic.Conj (Symbolic.Sample (-1) 0));
     Symbolic.Sample (-1) 0; Symbolic.Sample 0 (-1)]
  ∧ (run demo_fm demo_heap demo_array true).2 !!! 5%positive
    ≠ demo_heap !!! 5%positive.
Proof. split; [reflexivity | discriminate]. Qed.

Lemma exact_path_phase_difference_witness :
  (fast (set_fast false demo_fm) = false ∧ len ∅ demo_seq = 4%nat ∧
   Z.of_nat 4 = _input_size (set_fast false demo_fm) ∧ (1 ≤ 4)%nat) ∧
  let phase := unwrap (angle <$> contents ∅ demo_seq) in
  ∃ buf,
    pre_decimation (set_fast false demo_fm) ∅ demo_seq = Ok buf ∧
    (∀ c, ∃ r, (run (set_fast false demo_fm) ∅ demo_seq c).1.1 = Ok r ∧
               decimated (set_fast false demo_fm) buf r) ∧
    buf = (λ v, rdiv v pi) <$> (of_int 0 :: diff phase) ∧
    length phase = 4%nat ∧
    length (diff phase) = (4 - 1)%nat ∧
    length (of_int 0 :: diff phase) = 4%nat ∧
    (of_int 0 :: diff phase) !! 0%nat = Some (of_int 0) ∧
    length buf = 4%nat ∧
    buf !! 0%nat = Some (rdiv (of_int 0) pi) ∧
    (∀ k p0 p1,
       phase !! k = Some p0 → phase !! (k + 1)%nat = Some p1 →
       buf !! (k + 1)%nat = Some (rdiv (rsub p1 p0) pi)).
Proof.
  split; [split; [reflexivity|]; split; [reflexivity|];
          split; [reflexivity | lia]|].
  apply (exact_path_phase_difference (set_fast false demo_fm) ∅ demo_seq 4);
    [reflexivity | reflexivity | reflexivity | lia].
Defined.

Lemma run_rejects_size_mismatch_witness :
  Z.of_nat (len ∅ demo_empty_seq) ≠ _input_size demo_fm ∧
  run demo_fm ∅ demo_empty_seq true = (Raise InvalidInputSize, demo_fm, ∅) ∧
  ∃ r self' h',
    run (run demo_fm ∅ demo_empty_seq true).1.2
        (run demo_fm ∅ demo_empty_seq true).2 demo_seq true
    = (Ok r, self', h').
Proof.
  assert (Z.of_nat (len ∅ demo_empty_seq) ≠ _input_size demo_fm) as Hne
    by discriminate.
  split; [exact Hne|].
  destruct (run_rejects_size_mismatch demo_fm ∅ demo_empty_seq true)
    as [Hfail _].
  destruct (Hfail Hne) as [Hraise Hnext].
  split; [exact Hraise|]. apply Hnext. reflexivity.
Defined.

Lemma run_shape_witness :
  (Z.of_nat (len ∅ demo_seq) = _input_size demo_fm ∧
   ∀ b buf, pre_decimation (set_fast b demo_fm) ∅ demo_seq = Ok buf →
            Z.of_nat (length (Decimate_run (_decimate demo_fm) buf).2)
            = _output_size demo_fm) ∧
  ∀ b : bool, ∃ buf r self' h',
    pre_decimation (set_fast b demo_fm) ∅ demo_seq = Ok buf ∧
    run (set_fast b demo_fm) ∅ demo_seq true = (Ok r, self', h') ∧
    data (frame_of r) = (Decimate_run (_decimate demo_fm) buf).2 ∧
    length (data (frame_of r)) = Z.to_nat (_output_size demo_fm) ∧
    shape (frame_of r) = (Z.to_nat (_output_size demo_fm), 1%nat).
Proof.
  assert (∀ b buf, pre_decimation (set_fast b demo_fm) ∅ demo_seq = Ok buf →
                   Z.of_nat (length (Decimate_run (_decimate demo_fm) buf).2)
                   = _output_size demo_fm) as Hdec.
  { intros b buf _. reflexivity. }
  split; [split; [reflexivity | exact Hdec]|].
  apply (run_shape demo_fm ∅ demo_seq true); [reflexivity | exact Hdec].
Defined.



Lemma run_transfer_witness :
  Z.of_nat (len ∅ demo_seq) = _input_size demo_cuda_fm ∧
  ∃ a self' h',
    (∀ c, run demo_cuda_fm ∅ demo_seq c =
          (Ok (if _cuda demo_cuda_fm && c then HostCopy a else OnBackend a),
           self', h')) ∧
    (∀ c r, (run demo_cuda_fm ∅ demo_seq c).1.1 = Ok r →
            transferred r = true ↔ _cuda demo_cuda_fm = true ∧ c = true) ∧
    (_cuda demo_cuda_fm = false →
     run demo_cuda_fm ∅ demo_seq true = run demo_cuda_fm ∅ demo_seq false).
Proof.
  split; [reflexivity|].
  apply (run_transfer demo_cuda_fm ∅ demo_seq). reflexivity.
Defined.

(** The two outcomes of the last lemma, computed. *)
Lemma demo_cuda_transfer :
  transferred <$> (match (run demo_cuda_fm ∅ demo_seq true).1.1 with
                   | Ok r => Some r | Raise _ => None end) = Some true ∧
  transferred <$> (match (run demo_cuda_fm ∅ demo_seq false).1.1 with
                   | Ok r => Some r | Raise _ => None end) = Some false ∧
  transferred <$> (match (run demo_fm ∅ demo_seq true).1.1 with
                   | Ok r => Some r | Raise _ => None end) = Some false.
Proof. repeat split. Qed.

Lemma init_accepts_numbers_witness :
  (finite (PyFloat (S754_finite true 7 (-1))) = true ∧
   finite (PyInt 9) = true) ∧
  ∃ (n m : Z) (self : @FM Symbolic.xp Stride.decimator),
    __init__ (PyFloat (S754_finite true 7 (-1))) (PyInt 9)
      deemphasis_default true = Ok self ∧
    truncation_of (PyFloat (S754_finite true 7 (-1))) n ∧
    truncation_of (PyInt 9) m ∧
    _input_size self = n ∧
    _output_size self = m ∧
    ∀ self', evolves self self' →
             _input_size self' = n ∧ _output_size self' = m.
Proof.
  split; [split; reflexivity|].
  apply (init_accepts_numbers (PyFloat (S754_finite true 7 (-1))) (PyInt 9)
           deemphasis_default true); reflexivity.
Defined.

(** The float -3.5 and the int 9 give the sizes -3 and 9: the output is
    larger than the input, no error. *)
Lemma demo_degenerate_sizes :
  @__init__ Symbolic.xp Stride.decimator
    (PyFloat (S754_finite true 7 (-1))) (PyInt 9) deemphasis_default true
  = Ok {| _cuda := true; _input_size := -3; _output_size := 9;
          _decimate := ((-3, 9) : @Decimate _ Stride.decimator);
          fast := true |}.
Proof. reflexivity. Qed.

(** C9, as stated, fails for a float size that is not a number:
    [int(float('inf'))] raises OverflowError and [int(float('nan'))] raises
    ValueError, so the constructor raises. *)
Lemma init_rejects_non_finite :
  @__init__ Symbolic.xp Stride.decimator
    (PyFloat (S754_infinity false)) (PyInt 1) deemphasis_default false
  = Raise (OverflowError "cannot convert float infinity to integer") ∧
  @__init__ Symbolic.xp Stride.decimator
    (PyInt 1) (PyFloat S754_nan) deemphasis_default false
  = Raise (ValueError "cannot convert float NaN to integer").
Proof. split; reflexivity. Qed.

(** ** Further properties of [FM.run] and [FM.__init__] *)

Section Further.
Context `{DEC : Decimator}.
Implicit Types (self : FM) (h : gmap loc (list cplx)) (o : pyobj).

(** With fewer than three samples there is no difference product: line 64
    assigns an empty slice. *)
Lemma after_line_64_short (a : list cplx) :
  (length a ≤ 2)%nat → after_line_64 a = a.
Proof.
  intros Ha. unfold after_line_64.
  replace (length a - 2)%nat with 0%nat by lia. done.
Qed.

(** X1: on the fast path the decimator is given exactly as many samples
    as the input has, whatever the size: lines 64-65 raise no shape error
    for 0, 1 or 2 samples either. *)
Theorem fast_path_length self h o :
  fast self = true →
  Z.of_nat (len h o) = _input_size self →
  ∃ buf,
    pre_decimation self h o = Ok buf ∧
    (∀ c, ∃ r, (run self h o c).1.1 = Ok r ∧ decimated self buf r) ∧
    length buf = len h o ∧
    Z.of_nat (length buf) = _input_size self.
Proof.
  intros Hf Hv. pose proof (pre_decimation_fast self h o Hf) as Hb.
  eexists. split; [exact Hb|]. split.
  - intros c. by apply run_valid_decimated.
  - rewrite length_fmap, after_line_64_length. done.
Qed.

(** X2: on the fast path an input of at most two samples is demodulated
    sample by sample, as -(Re(x) - Im(x)) / 2, and no array that existed
    before the call is changed, the input array included. *)
Theorem fast_path_short_input self h o c :
  fast self = true →
  Z.of_nat (len h o) = _input_size self →
  (len h o ≤ 2)%nat →
  pre_decimation self h o = Ok (half_neg_re_minus_im <$> contents h o) ∧
  ∀ l, is_Some (h !! l) → (run self h o c).2 !! l = h !! l.
Proof.
  intros Hf Hv Hshort. unfold len in Hshort. split.
  - by rewrite (pre_decimation_fast self h o Hf), after_line_64_short.
  - intros l [x Hx].
    destruct (run_valid self h o c Hv) as (buf & _ & ->). cbn [snd].
    rewrite Hf, after_line_64_short by done.
    destruct o as [xs|l']; cbn [asarray fst snd contents].
    + assert (fresh (dom h) ≠ l) as Hfresh.
      { intros <-. apply (is_fresh (dom h)). apply elem_of_dom. by exists x. }
      by rewrite !lookup_insert_ne.
    + destruct (decide (l' = l)) as [->|Hne].
      * rewrite lookup_insert_eq, lookup_total_alt, Hx. done.
      * by rewrite lookup_insert_ne.
Qed.

(** X3: a call of [run] that fails the size check, a call on the exact
    path and a call whose input is a Python sequence change no array that
    existed before the call. *)
Theorem run_frame self h o c l :
  is_Some (h !! l) →
  Z.of_nat (len h o) ≠ _input_size self
  ∨ fast self = false
  ∨ (∃ xs, o = PySeq xs) →
  (run self h o c).2 !! l = h !! l.
Proof.
  intros Hl Hcase.
  destruct (decide (Z.of_nat (len h o) = _input_size self)) as [Hv|Hne].
  - destruct (run_valid self h o c Hv) as (buf & _ & ->). cbn [snd].
    assert (fresh (dom h) ≠ l) as Hfresh.
    { intros <-. apply (is_fresh (dom h)). by apply elem_of_dom. }
    destruct Hcase as [Hcase|[Hcase|[xs ->]]]; [done|..].
    + rewrite Hcase. destruct o as [xs|l']; cbn [asarray snd]; [|done].
      by rewrite lookup_insert_ne.
    + cbn [asarray fst snd]. destruct (fast self).
      * by rewrite !lookup_insert_ne.
      * by rewrite lookup_insert_ne.
  - unfold run. by rewrite decide_True.
Qed.

(** X4: on the fast path a second call with the same backend array is
    accepted (the length has not changed) and demodulates what the first
    call left there: its buffer comes from the difference products of the
    first call's difference products, not from the original samples. *)
Theorem fast_path_twice_same_array self h l c :
  fast self = true →
  Z.of_nat (length (h !!! l)) = _input_size self →
  let x := h !!! l in
  let self' := (run self h (BackendArray l) c).1.2 in
  let h' := (run self h (BackendArray l) c).2 in
  Z.of_nat (len h' (BackendArray l)) = _input_size self' ∧
  pre_decimation self' h' (BackendArray l)
    = Ok (half_neg_re_minus_im <$> after_line_64 (after_line_64 x)) ∧
  ∀ i x0 x1 x2 x3 x4 buf,
    x !! i = Some x0 → x !! (i + 1)%nat = Some x1 →
    x !! (i + 2)%nat = Some x2 → x !! (i + 3)%nat = Some x3 →
    x !! (i + 4)%nat = Some x4 →
    pre_decimation self' h' (BackendArray l) = Ok buf →
    buf !! i = Some (half_neg_re_minus_im
                       (difference_product
                          (difference_product x0 x1 x2)
                          (difference_product x1 x2 x3)
                          (difference_product x2 x3 x4))).
Proof.
  intros Hf Hv x self' h'.
  assert (fast self' = true ∧ _input_size self' = _input_size self
          ∧ h' = <[l := after_line_64 x]> h) as (Hf' & Hs' & Hh').
  { subst self' h'.
    destruct (run_valid self h (BackendArray l) c) as (? & _ & ->); [done|].
    cbn [fst snd fast _input_size]. by rewrite Hf. }
  assert (contents h' (BackendArray l) = after_line_64 x) as Hc.
  { cbn [contents]. by rewrite Hh', lookup_total_insert_eq. }
  assert (pre_decimation self' h' (BackendArray l)
          = Ok (half_neg_re_minus_im <$> after_line_64 (after_line_64 x)))
    as Hb by (by rewrite (pre_decimation_fast _ _ _ Hf'), Hc).
  split; [|split; [exact Hb|]].
  - unfold len. rewrite Hc, after_line_64_length, Hs'. exact Hv.
  - intros i x0 x1 x2 x3 x4 buf H0 H1 H2 H3 H4 Hbuf.
    rewrite Hb in Hbuf. injection Hbuf as <-.
    rewrite list_lookup_fmap.
    rewrite (after_line_64_front (after_line_64 x) i
               (difference_product x0 x1 x2)
               (difference_product x1 x2 x3)
               (difference_product x2 x3 x4)); [done|..].
    + by apply after_line_64_front.
    + apply after_line_64_front; [done|..].
      * by rewrite <- Nat.add_assoc.
      * by rewrite <- Nat.add_assoc.
    + apply after_line_64_front; [done|..].
      * by rewrite <- Nat.add_assoc.
      * by rewrite <- Nat.add_assoc.
Qed.
(** X5: a float size argument that is an infinity makes construction
    raise OverflowError, and one that is a NaN makes it raise ValueError:
    as [input_size] whatever the other arguments are, as [output_size]
    whenever [input_size] is an int or a finite float. *)
Theorem non_finite_size_raises (f : spec_float) other deemphasis cuda :
  finite (PyFloat f) = false →
  let e := match f with
           | S754_nan => ValueError "cannot convert float NaN to integer"
           | _ => OverflowError "cannot convert float infinity to integer"
           end in
  __init__ (PyFloat f) other deemphasis cuda = Raise e ∧
  (finite other = true →
   __init__ other (PyFloat f) deemphasis cuda = Raise e).
Proof.
  intros Hf e. unfold __init__. split.
  - by destruct f.
  - intros Ho. destruct (int_finite _ Ho) as (n & -> & _). by destruct f.
Qed.

(** X6: an object whose input size is negative rejects every input for
    the rest of its life: whatever calls and flag assignments came before,
    each call of [run] raises InvalidInputSize and changes nothing. *)
Theorem negative_input_size_rejects_all self self' h o c :
  _input_size self < 0 →
  evolves self self' →
  run self' h o c = (Raise InvalidInputSize, self', h).
Proof.
  intros Hneg Hev. destruct (evolves_fixed _ _ Hev) as (_ & Hsize & _).
  unfold run. rewrite decide_True; [done|]. lia.
Qed.

(** X7: the decimator's state is carried from one successful call to the
    next: the second call returns the answer that the decimator gives,
    on the second buffer, from the state the first call left it in. *)
Theorem run_twice_threads_decimator self h1 h2 o1 o2 c1 c2 :
  Z.of_nat (len h1 o1) = _input_size self →
  Z.of_nat (len h2 o2) = _input_size self →
  ∃ buf1 buf2 r2,
    pre_decimation self h1 o1 = Ok buf1 ∧
    pre_decimation self h2 o2 = Ok buf2 ∧
    let d1 := (Decimate_run (_decimate self) buf1).1 in
    let second := run (run self h1 o1 c1).1.2 h2 o2 c2 in
    second.1.1 = Ok r2 ∧
    frame_of r2 = expand_dims_1 (Decimate_run d1 buf2).2 ∧
    _decimate second.1.2 = (Decimate_run d1 buf2).1.
Proof.
  intros Hv1 Hv2.
  destruct (run_valid self h1 o1 c1 Hv1) as (buf1 & Hb1 & Hr1).
  set (self1 := (run self h1 o1 c1).1.2).
  assert (fast self1 = fast self ∧ _input_size self1 = _input_size self
          ∧ _cuda self1 = _cuda self
          ∧ _decimate self1 = (Decimate_run (_decimate self) buf1).1)
    as (Hf & Hs & Hc & Hd).
  { subst self1. by rewrite Hr1. }
  destruct (run_valid self1 h2 o2 c2) as (buf2 & Hb2 & Hr2); [congruence|].
  rewrite (pre_decimation_contents self1 self h2 h2 o2 o2 Hf eq_refl) in Hb2.
  exists buf1, buf2. eexists. split; [exact Hb1|]. split; [exact Hb2|].
  cbn zeta. rewrite Hr2. cbn [fst snd _decimate]. rewrite Hd.
  split; [done|]. split; [|done]. by destruct (_cuda self1 && c2).
Qed.

(** X8: [run] never touches the fast flag or the backend choice, whether
    it fails or returns; only an assignment to [fast] changes the path of
    the next call. *)
Theorem run_keeps_flag_and_backend self h o c :
  fast (run self h o c).1.2 = fast self ∧
  _cuda (run self h o c).1.2 = _cuda self ∧
  ∀ h' o', pre_decimation (run self h o c).1.2 h' o'
           = pre_decimation self h' o'.
Proof.
  assert (fast (run self h o c).1.2 = fast self
          ∧ _cuda (run self h o c).1.2 = _cuda self) as [Hf Hc].
  { destruct (decide (Z.of_nat (len h o) = _input_size self)) as [Hv|Hv].
    - destruct (run_valid self h o c Hv) as (buf & _ & ->). done.
    - unfold run. by rewrite decide_True. }
  split; [done|]. split; [done|]. intros h' o'.
  by apply pre_decimation_contents.
Qed.
End Further.

Lemma fast_path_length_witness :
  (fast demo_fm = true ∧ Z.of_nat (len ∅ demo_seq) = _input_size demo_fm) ∧
  ∃ buf,
    pre_decimation demo_fm ∅ demo_seq = Ok buf ∧
    (∀ c, ∃ r, (run demo_fm ∅ demo_seq c).1.1 = Ok r ∧
               decimated demo_fm buf r) ∧
    length buf = len ∅ demo_seq ∧
    Z.of_nat (length buf) = _input_size demo_fm.
Proof.
  split; [split; reflexivity|].
  apply (fast_path_length demo_fm ∅ demo_seq); reflexivity.
Defined.

Lemma fast_path_short_input_witness :
  (fast demo_pair_fm = true ∧
   Z.of_nat (len demo_pair_heap demo_array) = _input_size demo_pair_fm ∧
   (len demo_pair_heap demo_array ≤ 2)%nat) ∧
  pre_decimation demo_pair_fm demo_pair_heap demo_array
    = Ok (half_neg_re_minus_im <$> contents demo_pair_heap demo_array) ∧
  ∀ l, is_Some (demo_pair_heap !! l) →
       (run demo_pair_fm demo_pair_heap demo_array true).2 !! l
       = demo_pair_heap !! l.
Proof.
  split; [split; [reflexivity|]; split; [reflexivity | vm_compute; lia]|].
  apply (fast_path_short_input demo_pair_fm demo_pair_heap demo_array true);
    [reflexivity | reflexivity | vm_compute; lia].
Defined.

Lemma run_frame_witness :
  (is_Some (demo_heap !! 5%positive) ∧
   (Z.of_nat (len demo_heap demo_array)
      ≠ _input_size (set_fast false demo_fm)
    ∨ fast (set_fast false demo_fm) = false
    ∨ ∃ xs, demo_array = PySeq xs)) ∧
  (run (set_fast false demo_fm) demo_heap demo_array true).2 !! 5%positive
  = demo_heap !! 5%positive.
Proof.
  assert (is_Some (demo_heap !! 5%positive)) as Hl by (by eexists).
  assert (Z.of_nat (len demo_heap demo_array)
            ≠ _input_size (set_fast false demo_fm)
          ∨ fast (set_fast false demo_fm) = false
          ∨ ∃ xs, demo_array = PySeq xs) as Hc
    by (right; left; reflexivity).
  split; [split; [exact Hl | exact Hc]|].
  apply (run_frame (set_fast false demo_fm) demo_heap demo_array true
           5%positive Hl Hc).
Defined.

Lemma non_finite_size_raises_witness :
  finite (PyFloat (S754_infinity true)) = false ∧
  @__init__ Symbolic.xp Stride.decimator
    (PyFloat (S754_infinity true)) (PyInt 1) deemphasis_default false
  = Raise (OverflowError "cannot convert float infinity to integer") ∧
  (finite (PyInt 1) = true →
   @__init__ Symbolic.xp Stride.decimator
     (PyInt 1) (PyFloat (S754_infinity true)) deemphasis_default false
   = Raise (OverflowError "cannot convert float infinity to integer")).
Proof.
  split; [reflexivity|].
  apply (@non_finite_size_raises Symbolic.xp Stride.decimator
           (S754_infinity true) (PyInt 1) deemphasis_default false).
  reflexivity.
Defined.

Lemma fast_path_twice_same_array_witness :
  (fast demo_fm5 = true ∧
   Z.of_nat (length (demo_heap5 !!! 5%positive)) = _input_size demo_fm5) ∧
  let x := demo_heap5 !!! 5%positive in
  let self' := (run demo_fm5 demo_heap5 demo_array true).1.2 in
  let h' := (run demo_fm5 demo_heap5 demo_array true).2 in
  Z.of_nat (len h' demo_array) = _input_size self' ∧
  pre_decimation self' h' demo_array
    = Ok (half_neg_re_minus_im <$> after_line_64 (after_line_64 x)) ∧
  ∀ i x0 x1 x2 x3 x4 buf,
    x !! i = Some x0 → x !! (i + 1)%nat = Some x1 →
    x !! (i + 2)%nat = Some x2 → x !! (i + 3)%nat = Some x3 →
    x !! (i + 4)%nat = Some x4 →
    pre_decimation self' h' demo_array = Ok buf →
    buf !! i = Some (half_neg_re_minus_im
                       (difference_product
                          (difference_product x0 x1 x2)
                          (difference_product x1 x2 x3)
                          (difference_product x2 x3 x4))).
Proof.
  split; [split; reflexivity|].
  apply (fast_path_twice_same_array demo_fm5 demo_heap5 5%positive true);
    reflexivity.
Defined.

Lemma negative_input_size_rejects_all_witness :
  (_input_size demo_negative_fm < 0 ∧
   evolves demo_negative_fm (set_fast false demo_negative_fm)) ∧
  run (set_fast false demo_negative_fm) ∅ demo_seq true
  = (Raise InvalidInputSize, set_fast false demo_negative_fm, ∅).
Proof.
  assert (evolves demo_negative_fm (set_fast false demo_negative_fm)) as Hev
    by (apply evolves_set_fast, evolves_refl).
  split; [split; [reflexivity | exact Hev]|].
  apply (negative_input_size_rejects_all demo_negative_fm _ ∅ demo_seq true);
    [reflexivity | exact Hev].
Defined.

(** The object of the last lemma is the one that the sizes -3.5 and 9
    construct. *)
Lemma demo_negative_fm_constructed :
  __init__ (PyFloat (S754_finite true 7 (-1))) (PyInt 9)
    deemphasis_default true = Ok demo_negative_fm.
Proof. reflexivity. Qed.

Lemma run_twice_threads_decimator_witness :
  (Z.of_nat (len ∅ demo_seq) = _input_size demo_fm ∧
   Z.of_nat (len demo_heap demo_array) = _input_size demo_fm) ∧
  ∃ buf1 buf2 r2,
    pre_decimation demo_fm ∅ demo_seq = Ok buf1 ∧
    pre_decimation demo_fm demo_heap demo_array = Ok buf2 ∧
    let d1 := (Decimate_run (_decimate demo_fm) buf1).1 in
    let second :=
      run (run demo_fm ∅ demo_seq true).1.2 demo_heap demo_array false in
    second.1.1 = Ok r2 ∧
    frame_of r2 = expand_dims_1 (Decimate_run d1 buf2).2 ∧
    _decimate second.1.2 = (Decimate_run d1 buf2).1.
Proof.
  split; [split; reflexivity|].
  apply (run_twice_threads_decimator demo_fm ∅ demo_heap demo_seq demo_array
           true false); reflexivity.
Defined.
